(** * PyPDFToDocument: a shallow embedding of
      haystack/preview/components/file_converters/pypdf.py

    The component iterates a list of inputs, hands each one to the
    pypdf reader, joins the text of the pages and wraps the result in a
    Document.  Python exceptions are an explicit [Result]; the logger
    and the component instance are the state threaded through a call. *)

From stdpp Require Import base option list strings gmap.

Open Scope string_scope.
Open Scope list_scope.

(** ** Python values used by the component *)

(** An instance of Python's [Exception] class: the class name and the
    message.  These are the errors a [raise] in the component or in the
    reader produces and that [except Exception] matches. *)
Record PyException := mkException {
  exc_class : string;
  exc_message : string
}.

Definition ValueError (msg : string) : PyException := mkException "ValueError" msg.
Definition ImportError (msg : string) : PyException := mkException "ImportError" msg.
Definition TypeError (msg : string) : PyException := mkException "TypeError" msg.

(** The outcome of evaluating an expression: a value or a raised exception. *)
Inductive Result (A : Type) : Type :=
| Ok (a : A)
| Raise (e : PyException).
Arguments Ok {A} a.
Arguments Raise {A} e.

Definition is_raise {A} (r : Result A) : bool :=
  match r with Ok _ => false | Raise _ => true end.

Definition result_bind {A B} (r : Result A) (k : A → Result B) : Result B :=
  match r with
  | Ok a => k a
  | Raise e => Raise e
  end.

(** [haystack.preview.dataclasses.ByteStream]: the component reads only
    its [data] payload. *)
Record ByteStream := mkByteStream {
  data : list Byte.byte;
  metadata : list (string * string)
}.

(** [pathlib.Path], with the string [str(path)] gives. *)
Record Path := mkPath { path_str : string }.

(** What a caller can put in [paths].  Python does not enforce the
    annotation [Union[str, Path, ByteStream]], so a value of any other
    type can arrive; it is kept with the text of its [type(...)]. *)
Inductive PathItem :=
| ItemStr (s : string)
| ItemPath (p : Path)
| ItemByteStream (b : ByteStream)
| ItemOther (type_repr : string).

Definition is_supported (item : PathItem) : bool :=
  match item with
  | ItemOther _ => false
  | _ => true
  end.

(** [haystack.preview.Document] as this component builds it:
    [Document(text=text, id_hash_keys=id_hash_keys)]. *)
Record Document := mkDocument {
  text : string;
  doc_id_hash_keys : list string
}.

(** ** The pypdf library *)

(** A page of an opened PDF: [page.extract_text()] gives a string or raises. *)
Record PdfPage := mkPage { extract_text : Result string }.

(** The argument of [PdfReader(...)]: a file name or a byte stream
    ([io.BytesIO(data)]). *)
Inductive PdfSource :=
| FromFile (name : string)
| FromBytesIO (payload : list Byte.byte).

(** ** The logger *)

(** A record of [logger.warning(msg, path, e)]: the format string and
    its two arguments. *)
Record LogRecord := mkLogRecord {
  levelname : string;
  msg : string;
  arg_path : PathItem;
  arg_error : PyException
}.

Definition warning (fmt : string) (path : PathItem) (e : PyException) : LogRecord :=
  mkLogRecord "WARNING" fmt path e.

(** ** The component instance and the state of a call *)

Record PyPDFToDocument := mkPyPDFToDocument {
  id_hash_keys : list string
}.

(** What a method call can read and change: the instance it is called
    on and the records the module's logger has received. *)
Record World := mkWorld {
  self : PyPDFToDocument;
  log_records : list LogRecord
}.

(** A method body: from a state to an outcome and the state it leaves. *)
Definition M (A : Type) : Type := World → Result A * World.

Definition ret {A} (a : A) : M A := λ w, (Ok a, w).

Definition bind {A B} (m : M A) (k : A → M B) : M B :=
  λ w, match m w with
       | (Ok a, w') => k a w'
       | (Raise e, w') => (Raise e, w')
       end.

Definition lift {A} (r : Result A) : M A := λ w, (r, w).

(** [try: body / except Exception as e: handler e] *)
Definition try_except {A} (body : M A) (handler : PyException → M A) : M A :=
  λ w, match body w with
       | (Ok a, w') => (Ok a, w')
       | (Raise e, w') => handler e w'
       end.

Definition get_self : M PyPDFToDocument := λ w, (Ok (self w), w).

Definition logger_warning (fmt : string) (path : PathItem) (e : PyException) : M unit :=
  λ w, (Ok tt, mkWorld (self w) (log_records w ++ [warning fmt path e])).

Declare Scope py_scope.
Delimit Scope py_scope with py.
Notation "x <- m ;; k" := (bind m (λ x, k))
  (at level 100, m at next level, right associativity) : py_scope.
Notation "m ;;; k" := (bind m (λ _, k))
  (at level 100, right associativity) : py_scope.

(** [for x in xs: acc = body x acc], the accumulator being the local
    variables the loop body updates. *)
Fixpoint for_each {A S} (xs : list A) (body : A → S → M S) (acc : S) : M S :=
  match xs with
  | [] => ret acc
  | x :: xs' => bind (body x acc) (for_each xs' body)
  end.

(** [a or b] on an optional list: [None] and the empty list are falsy. *)
Definition py_or (a : option (list string)) (b : list string) : list string :=
  match a with
  | Some (x :: l) => x :: l
  | Some [] => b
  | None => b
  end.

(** [s] in a condition: the empty string is falsy. *)
Definition truthy (s : string) : bool :=
  match s with
  | EmptyString => false
  | String _ _ => true
  end.

(** ** Helpers of the framework that the component calls *)

(** Modelled from the spec: [haystack.preview.lazy_imports.LazyImport]
    is not part of this file.  The spec asks for a probe of the
    PDF-parsing capability that reports a setup/dependency error when
    the capability is missing: the [with] block keeps the error of the
    import it guards, and [check] raises an [ImportError] carrying the
    installation hint when there is one. *)
Record LazyImport := mkLazyImport {
  import_hint : string;
  import_failure : option PyException
}.

Definition with_LazyImport (hint : string) (body : Result unit) : LazyImport :=
  match body with
  | Ok _ => mkLazyImport hint None
  | Raise e => mkLazyImport hint (Some e)
  end.

Definition check (li : LazyImport) : Result unit :=
  match import_failure li with
  | None => Ok tt
  | Some e => Raise (ImportError (exc_message e +:+ ". " +:+ import_hint li))
  end.

(** Modelled from the spec: [haystack.preview.default_to_dict] is not
    part of this file.  The spec's configuration mapping is
    [{"id_hash_keys": L}]: the keyword arguments it is given. *)
Definition default_to_dict {A} (obj : A) (init_parameters : gmap string (list string))
  : gmap string (list string) := init_parameters.

(** Modelled from the spec: [haystack.preview.default_from_dict] is not
    part of this file.  It "reconstructs an instance using the values
    in the mapping": the class is called with the mapping as keyword
    arguments. *)
Definition default_from_dict {A} (cls : gmap string (list string) → Result A)
    (config : gmap string (list string)) : Result A :=
  cls config.

(** ** The module *)

Section Pypdf.

(** Whether [from pypdf import PdfReader] succeeds in this environment. *)
Variable pypdf_installed : bool.

(** [PdfReader(src).pages]: the pages of the PDF at [src], or the
    exception opening or parsing it raises. *)
Variable PdfReader : PdfSource → Result (list PdfPage).

Definition import_PdfReader : Result unit :=
  if pypdf_installed then Ok tt
  else Raise (mkException "ModuleNotFoundError" "No module named 'pypdf'").

Definition pypdf_import : LazyImport :=
  with_LazyImport "Run 'pip install pypdf'" import_PdfReader.

Definition __init__ (id_hash_keys' : option (list string)) : Result PyPDFToDocument :=
  result_bind (check pypdf_import) (λ _,
  Ok (mkPyPDFToDocument (py_or id_hash_keys' []))).

(** The class called with keyword arguments: the only parameter of the
    constructor is [id_hash_keys]; any other keyword is a [TypeError]. *)
Definition PyPDFToDocument_new (kwargs : gmap string (list string)) : Result PyPDFToDocument :=
  if decide (dom kwargs ⊆ ({[ "id_hash_keys" ]} : gset string))
  then __init__ (kwargs !! "id_hash_keys")
  else Raise (TypeError "__init__() got an unexpected keyword argument").

Definition to_dict : M (gmap string (list string)) :=
  (this <- get_self;;
   ret (default_to_dict this {[ "id_hash_keys" := id_hash_keys this ]}))%py.

Definition from_dict (config : gmap string (list string)) : Result PyPDFToDocument :=
  default_from_dict PyPDFToDocument_new config.

(** The generator
    [extracted_text for page in pages if (extracted_text := page.extract_text())]:
    pages are visited in order, a page whose text is falsy is dropped,
    and the first exception ends the iteration. *)
Fixpoint extracted_texts (pages : list PdfPage) : Result (list string) :=
  match pages with
  | [] => Ok []
  | page :: rest =>
      result_bind (extract_text page) (λ extracted_text,
      result_bind (extracted_texts rest) (λ texts,
      Ok (if truthy extracted_text then extracted_text :: texts else texts)))
  end.

Definition _read_pdf_file (path : PathItem) : Result string :=
  result_bind
    match path with
    | ItemStr s => PdfReader (FromFile s)
    | ItemPath p => PdfReader (FromFile (path_str p))
    | ItemByteStream b => PdfReader (FromBytesIO (data b))
    | ItemOther type_repr => Raise (ValueError ("Unsupported path type: " +:+ type_repr))
    end (λ pages,
  result_bind (extracted_texts pages) (λ texts,
  Ok (String.concat "" texts))).

Definition skip_message : string :=
  "Could not read %s. Skipping it. Error message: %s".

(** One turn of the loop of [run]: [None] stands for [continue]. *)
Definition run_body (keys : list string) (path : PathItem) (documents : list Document)
  : M (list Document) :=
  (r <- try_except
          (text <- lift (_read_pdf_file path);; ret (Some text))
          (λ e, logger_warning skip_message path e;;; ret None);;
   match r with
   | None => ret documents
   | Some text => ret (documents ++ [mkDocument text keys])
   end)%py.

Definition run (paths : list PathItem) (id_hash_keys' : option (list string))
  : M (gmap string (list Document)) :=
  (this <- get_self;;
   let id_hash_keys := py_or id_hash_keys' (id_hash_keys this) in
   documents <- for_each paths (run_body id_hash_keys) [];;
   ret {[ "documents" := documents ]})%py.

(** *** What the loop computes *)

(** The document of one input, when reading it succeeds. *)
Definition document_of (keys : list string) (path : PathItem) : option Document :=
  match _read_pdf_file path with
  | Ok t => Some (mkDocument t keys)
  | Raise _ => None
  end.

(** The warning of one input, when reading it raises. *)
Definition warning_of (path : PathItem) : option LogRecord :=
  match _read_pdf_file path with
  | Ok _ => None
  | Raise e => Some (warning skip_message path e)
  end.

Definition fails (path : PathItem) : bool := is_raise (_read_pdf_file path).

End Pypdf.

(** The library's contract for file names: opening the file called
    [name] reads the bytes the file system holds under that name and
    parses them as [io.BytesIO] of the same bytes is parsed. *)
Definition reads_files (fs : string → option (list Byte.byte))
    (PdfReader : PdfSource → Result (list PdfPage)) : Prop :=
  ∀ name payload, fs name = Some payload →
    PdfReader (FromFile name) = PdfReader (FromBytesIO payload).

(** [item] is a path or a byte buffer and the reader opens it to [pages]. *)
Inductive opens (PdfReader : PdfSource → Result (list PdfPage))
  : PathItem → list PdfPage → Prop :=
| opens_str s pages :
    PdfReader (FromFile s) = Ok pages → opens PdfReader (ItemStr s) pages
| opens_path p pages :
    PdfReader (FromFile (path_str p)) = Ok pages → opens PdfReader (ItemPath p) pages
| opens_bytes b pages :
    PdfReader (FromBytesIO (data b)) = Ok pages → opens PdfReader (ItemByteStream b) pages.

(** What [_read_pdf_file] hands to [PdfReader] for an item: the file
    name of a string or of a [Path], the payload of a byte buffer, and
    nothing for a value of another type. *)
Definition source_of (item : PathItem) : option PdfSource :=
  match item with
  | ItemStr s => Some (FromFile s)
  | ItemPath p => Some (FromFile (path_str p))
  | ItemByteStream b => Some (FromBytesIO (data b))
  | ItemOther _ => None
  end.

(** ** A small environment to run the component in *)

Module Sample.

Import Byte.

(** The bytes of a three-page file with a blank page in the middle, of
    a blank scan, of a one-page file, of a file whose second page
    cannot be extracted, and garbage. *)
Definition hello_bytes : list byte := [x25; x50; x44; x46; x2d; x31].
Definition scan_bytes : list byte := [x25; x50; x44; x46; x2d; x32].
Definition second_bytes : list byte := [x25; x50; x44; x46; x2d; x33].
Definition damaged_bytes : list byte := [x25; x50; x44; x46; x2d; x34].
Definition garbage_bytes : list byte := [x00; xff].

Definition parse (payload : list byte) : Result (list PdfPage) :=
  match payload with
  | [x25; x50; x44; x46; x2d; x31] =>
      Ok [mkPage (Ok "Hello "); mkPage (Ok ""); mkPage (Ok "world")]
  | [x25; x50; x44; x46; x2d; x32] =>
      Ok [mkPage (Ok "")]
  | [x25; x50; x44; x46; x2d; x33] =>
      Ok [mkPage (Ok "Second")]
  | [x25; x50; x44; x46; x2d; x34] =>
      Ok [mkPage (Ok "Third"); mkPage (Raise (mkException "KeyError" "/Contents"))]
  | _ => Raise (mkException "PdfReadError" "EOF marker not found")
  end.

Definition fs (name : string) : option (list byte) :=
  if String.eqb name "valid.pdf" then Some hello_bytes
  else if String.eqb name "valid2.pdf" then Some second_bytes
  else if String.eqb name "damaged.pdf" then Some damaged_bytes
  else if String.eqb name "scan.pdf" then Some scan_bytes
  else if String.eqb name "corrupt.pdf" then Some garbage_bytes
  else None.

Definition reader (src : PdfSource) : Result (list PdfPage) :=
  match src with
  | FromFile name =>
      match fs name with
      | Some payload => parse payload
      | None => Raise (mkException "FileNotFoundError" name)
      end
  | FromBytesIO payload => parse payload
  end.

Definition converter : PyPDFToDocument := mkPyPDFToDocument ["text"].

Definition world : World := mkWorld converter [].

Definition an_int : PathItem := ItemOther "<class 'int'>".

Definition hello_buffer : ByteStream := mkByteStream hello_bytes [].

Definition tagged_buffer : ByteStream :=
  mkByteStream hello_bytes [("file_name", "hello.pdf")].

End Sample.

(** ** The loop of [run] *)

Section RunFacts.

Variable PdfReader : PdfSource → Result (list PdfPage).

Local Abbreviation read := (_read_pdf_file PdfReader).
Local Abbreviation doc_of := (document_of PdfReader).
Local Abbreviation warn_of := (warning_of PdfReader).

Lemma run_body_ok keys path documents t w :
  read path = Ok t →
  run_body PdfReader keys path documents w = (Ok (documents ++ [mkDocument t keys]), w).
Proof.
  intros H. unfold run_body, bind, try_except, lift, ret. by rewrite H.
Qed.

Lemma run_body_raise keys path documents e w :
  read path = Raise e →
  run_body PdfReader keys path documents w =
    (Ok documents, mkWorld (self w) (log_records w ++ [warning skip_message path e])).
Proof.
  intros H. unfold run_body, bind, try_except, lift, ret, logger_warning.
  by rewrite H.
Qed.

Lemma for_each_run_body keys paths : ∀ documents w,
  for_each paths (run_body PdfReader keys) documents w =
    (Ok (documents ++ omap (doc_of keys) paths),
     mkWorld (self w) (log_records w ++ omap warn_of paths)).
Proof.
  induction paths as [|path paths IH]; intros documents w; simpl.
  - unfold ret. rewrite !app_nil_r. by destruct w.
  - unfold bind, document_of, warning_of.
    destruct (read path) as [t|e] eqn:E.
    + rewrite (run_body_ok _ _ _ t) by done. rewrite IH.
      by rewrite <- app_assoc.
    + rewrite (run_body_raise _ _ _ e) by done. rewrite IH. simpl.
      by rewrite <- app_assoc.
Qed.

Lemma run_spec paths o w :
  run PdfReader paths o w =
    (Ok {[ "documents" := omap (doc_of (py_or o (id_hash_keys (self w)))) paths ]},
     mkWorld (self w) (log_records w ++ omap warn_of paths)).
Proof.
  unfold run, bind, get_self. rewrite for_each_run_body. by unfold ret.
Qed.

Lemma document_of_raise keys path e : read path = Raise e → doc_of keys path = None.
Proof. unfold document_of. by intros ->. Qed.

Lemma warning_of_raise path e :
  read path = Raise e → warn_of path = Some (warning skip_message path e).
Proof. unfold warning_of. by intros ->. Qed.

Lemma read_unsupported type_repr :
  read (ItemOther type_repr) = Raise (ValueError ("Unsupported path type: " +:+ type_repr)).
Proof. reflexivity. Qed.

Lemma document_of_keys keys paths :
  Forall (λ d, doc_id_hash_keys d = keys) (omap (doc_of keys) paths).
Proof.
  induction paths as [|p paths IH]; simpl; [constructor|].
  unfold document_of at 1. destruct (read p); [by constructor | done].
Qed.

Lemma length_documents keys paths :
  length (omap (doc_of keys) paths) + length (filter (λ p, fails PdfReader p = true) paths)
    = length paths.
Proof.
  induction paths as [|p paths IH]; simpl; [done|].
  unfold document_of at 1. destruct (read p) as [t|e] eqn:E; simpl.
  - rewrite filter_cons_False by (unfold fails; by rewrite E).
    f_equal. exact IH.
  - rewrite filter_cons_True by (unfold fails; by rewrite E). simpl.
    rewrite Nat.add_succ_r. f_equal. exact IH.
Qed.

Lemma documents_in_order keys paths :
  Forall2 (λ p d, read p = Ok (text d))
    (filter (λ p, fails PdfReader p = false) paths) (omap (doc_of keys) paths).
Proof.
  induction paths as [|p paths IH]; simpl; [constructor|].
  unfold document_of at 1. destruct (read p) as [t|e] eqn:E; simpl.
  - rewrite filter_cons_True by (unfold fails; by rewrite E). by constructor.
  - by rewrite filter_cons_False by (unfold fails; by rewrite E).
Qed.

(** C2. A call over N inputs of which F fail to be read returns the
    mapping whose ["documents"] entry has exactly N − F documents; they
    are the documents of the inputs that were read, in the order of
    those inputs, each holding the text read from its input, and
    nothing stands in for a skipped input. *)
Theorem run_cardinality_and_order paths o w :
  ∃ docs,
    (run PdfReader paths o w).1 = Ok {[ "documents" := docs ]} ∧
    length docs = length paths - length (filter (λ p, fails PdfReader p = true) paths) ∧
    Forall2 (λ p d, read p = Ok (text d))
      (filter (λ p, fails PdfReader p = false) paths) docs.
Proof.
  rewrite run_spec. eexists. split; [reflexivity|]. split.
  - pose proof (length_documents (py_or o (id_hash_keys (self w))) paths). lia.
  - apply documents_in_order.
Qed.

(** C3. When reading the item at some position of the list raises,
    the call still returns: no document stands for that item, one
    warning holding the item and the exception is recorded between the
    warnings of the items before and after it, and the items after it
    are processed as usual. *)
Theorem run_skips_failing_item before item after e o w :
  read item = Raise e →
  run PdfReader (before ++ item :: after) o w =
    (Ok {[ "documents" :=
             omap (doc_of (py_or o (id_hash_keys (self w)))) before ++
             omap (doc_of (py_or o (id_hash_keys (self w)))) after ]},
     mkWorld (self w)
       (log_records w ++ omap warn_of before ++
        [warning skip_message item e] ++ omap warn_of after)).
Proof.
  intros H. rewrite run_spec, !omap_app. simpl.
  by rewrite (document_of_raise _ _ e), (warning_of_raise _ e).
Qed.

(** C1 (as the code has it). An item that is neither a path nor a
    byte buffer does not abort the call, whatever its position: the
    call returns the documents of the other items, and the item is
    skipped with a warning that holds it and the [ValueError] naming
    its type. *)
Theorem run_skips_unsupported_item before type_repr after o w :
  run PdfReader (before ++ ItemOther type_repr :: after) o w =
    (Ok {[ "documents" :=
             omap (doc_of (py_or o (id_hash_keys (self w)))) before ++
             omap (doc_of (py_or o (id_hash_keys (self w)))) after ]},
     mkWorld (self w)
       (log_records w ++ omap warn_of before ++
        [warning skip_message (ItemOther type_repr)
           (ValueError ("Unsupported path type: " +:+ type_repr))] ++
        omap warn_of after)).
Proof.
  rewrite run_spec, !omap_app. reflexivity.
Qed.

(** C10. For every list of inputs, items of unsupported type
    included, [run] returns a mapping whose only key is ["documents"]
    and raises nothing; every item of unsupported type leaves a
    warning with its [ValueError] in the log. *)
Theorem run_never_raises paths o w :
  ∃ docs w',
    run PdfReader paths o w = (Ok {[ "documents" := docs ]}, w') ∧
    dom ({[ "documents" := docs ]} : gmap string (list Document)) = {[ "documents" ]} ∧
    ∀ type_repr, ItemOther type_repr ∈ paths →
      warning skip_message (ItemOther type_repr)
        (ValueError ("Unsupported path type: " +:+ type_repr)) ∈ log_records w'.
Proof.
  rewrite run_spec. eexists _, _. split; [reflexivity|]. split.
  - apply dom_singleton_L.
  - intros ty Hin. simpl. apply elem_of_app. right.
    apply list_elem_of_omap. exists (ItemOther ty). split; [done|].
    by rewrite (warning_of_raise _ _ (read_unsupported ty)).
Qed.

(** *** Joining the text of the pages *)

Lemma truthy_nonempty t : truthy t = true ↔ t ≠ "".
Proof. destruct t; simpl; split; congruence. Qed.

Lemma append_empty_r (s : string) : (s +:+ "")%string = s.
Proof.
  induction s as [|c s IH]; [done|].
  change (String c (s +:+ "") = String c s). by rewrite IH.
Qed.

Lemma concat_no_separator (texts : list string) :
  String.concat "" texts = foldr String.append "" texts.
Proof.
  induction texts as [|t [|t' texts] IH]; simpl; [done | | ].
  - by rewrite append_empty_r.
  - simpl in IH. by rewrite IH.
Qed.

Lemma extracted_texts_ok pages : ∀ texts,
  extract_text <$> pages = Ok <$> texts →
  extracted_texts pages = Ok (filter (λ t, t ≠ "") texts).
Proof.
  induction pages as [|page pages IH]; intros [|t texts] H; simpl in H; try done.
  injection H as Ht Hrest. simpl. rewrite Ht. simpl.
  rewrite (IH texts Hrest). simpl.
  destruct (truthy t) eqn:E.
  - by rewrite filter_cons_True by (by apply truthy_nonempty).
  - rewrite filter_cons_False; [done|].
    intros Hne. apply truthy_nonempty in Hne. congruence.
Qed.

Lemma filter_nonempty_blank (texts : list string) :
  Forall (λ t, t = "") texts → filter (λ t, t ≠ "") texts = [].
Proof.
  induction 1 as [|t texts Ht _ IH]; [done|].
  by rewrite filter_cons_False by (by intros ?).
Qed.

Lemma read_opens item pages texts :
  opens PdfReader item pages →
  extract_text <$> pages = Ok <$> texts →
  read item = Ok (foldr String.append "" (filter (λ t, t ≠ "") texts)).
Proof.
  intros Hopen Hpages. apply extracted_texts_ok in Hpages.
  inversion Hopen as [s ps Hr|p ps Hr|b ps Hr]; subst;
    unfold _read_pdf_file; rewrite Hr; simpl; rewrite Hpages; simpl;
    by rewrite concat_no_separator.
Qed.

Lemma run_single_ok item t o w :
  read item = Ok t →
  run PdfReader [item] o w =
    (Ok {[ "documents" := [mkDocument t (py_or o (id_hash_keys (self w)))] ]}, w).
Proof.
  intros H. rewrite run_spec. simpl. unfold document_of, warning_of.
  rewrite H. rewrite app_nil_r. by destruct w.
Qed.

(** C6. When the reader opens an input and every page gives a text,
    the call produces one document whose text is the texts of the
    non-empty pages appended in page order, with nothing between them;
    when every page gives the empty text the input is not skipped: its
    document has the empty string as text and no warning is recorded. *)
Theorem text_is_join_of_nonempty_pages item pages texts o w :
  opens PdfReader item pages →
  extract_text <$> pages = Ok <$> texts →
  run PdfReader [item] o w =
    (Ok {[ "documents" :=
             [mkDocument (foldr String.append "" (filter (λ t, t ≠ "") texts))
                (py_or o (id_hash_keys (self w)))] ]}, w) ∧
  (Forall (λ t, t = "") texts →
   run PdfReader [item] o w =
     (Ok {[ "documents" := [mkDocument "" (py_or o (id_hash_keys (self w)))] ]}, w)).
Proof.
  intros Hopen Hpages.
  pose proof (read_opens _ _ _ Hopen Hpages) as Hread.
  split.
  - by apply run_single_ok.
  - intros Hblank. rewrite (filter_nonempty_blank _ Hblank) in Hread.
    by apply run_single_ok.
Qed.

(** C7. When the library reads files from [fs], the file [name]
    holds the bytes of the byte buffer [b], and these bytes are a PDF
    the reader opens and extracts, then the call on the path (as a
    string or as a [Path]) and the call on the buffer each produce one
    document, and the texts of these documents are the same. *)
Theorem path_and_buffer_give_same_text fs name b pages texts o w :
  reads_files fs PdfReader →
  fs name = Some (data b) →
  PdfReader (FromBytesIO (data b)) = Ok pages →
  extracted_texts pages = Ok texts →
  ∃ d_str d_path d_buf,
    (run PdfReader [ItemStr name] o w).1 = Ok {[ "documents" := [d_str] ]} ∧
    (run PdfReader [ItemPath (mkPath name)] o w).1 = Ok {[ "documents" := [d_path] ]} ∧
    (run PdfReader [ItemByteStream b] o w).1 = Ok {[ "documents" := [d_buf] ]} ∧
    text d_str = text d_buf ∧ text d_path = text d_buf.
Proof.
  intros Hlib Hfile Hopen Htexts.
  pose proof (Hlib _ _ Hfile) as Hsame.
  assert (read (ItemByteStream b) = Ok (String.concat "" texts)) as Hb.
  { unfold _read_pdf_file. rewrite Hopen. simpl. by rewrite Htexts. }
  assert (read (ItemStr name) = Ok (String.concat "" texts)) as Hs.
  { unfold _read_pdf_file. rewrite Hsame, Hopen. simpl. by rewrite Htexts. }
  assert (read (ItemPath (mkPath name)) = Ok (String.concat "" texts)) as Hp.
  { unfold _read_pdf_file. simpl. rewrite Hsame, Hopen. simpl. by rewrite Htexts. }
  eexists _, _, _.
  rewrite (run_single_ok _ _ _ _ Hs), (run_single_ok _ _ _ _ Hp),
    (run_single_ok _ _ _ _ Hb).
  simpl. repeat split; reflexivity.
Qed.

(** *** The override of [id_hash_keys] *)

Lemma py_or_nonempty (L default : list string) : L ≠ [] → py_or (Some L) default = L.
Proof. by destruct L. Qed.

(** C5 (as the code has it). With a non-empty override list, every
    document of the call is built with the override and not with the
    instance's default; the instance is the same after the call, and a
    later call without an override builds its documents with the
    default the instance had before. *)
Theorem override_used_and_default_kept paths L later w :
  L ≠ [] →
  ∃ docs w',
    run PdfReader paths (Some L) w = (Ok {[ "documents" := docs ]}, w') ∧
    Forall (λ d, doc_id_hash_keys d = L) docs ∧
    self w' = self w ∧
    ∃ docs2 w'',
      run PdfReader later None w' = (Ok {[ "documents" := docs2 ]}, w'') ∧
      Forall (λ d, doc_id_hash_keys d = id_hash_keys (self w)) docs2.
Proof.
  intros HL. rewrite run_spec. eexists _, _. split; [reflexivity|].
  rewrite (py_or_nonempty _ _ HL). split; [apply document_of_keys|].
  split; [reflexivity|].
  rewrite run_spec. eexists _, _. split; [reflexivity|]. simpl.
  apply document_of_keys.
Qed.

(** C9. An empty override list is falsy: the call behaves as the
    call without an override and builds its documents with the
    instance's default; a non-empty override is the list the documents
    are built with. *)
Theorem empty_override_uses_default paths w :
  run PdfReader paths (Some []) w = run PdfReader paths None w ∧
  (∃ docs w',
     run PdfReader paths (Some []) w = (Ok {[ "documents" := docs ]}, w') ∧
     Forall (λ d, doc_id_hash_keys d = id_hash_keys (self w)) docs) ∧
  (∀ k ks, ∃ docs w',
     run PdfReader paths (Some (k :: ks)) w = (Ok {[ "documents" := docs ]}, w') ∧
     Forall (λ d, doc_id_hash_keys d = k :: ks) docs).
Proof.
  split; [by rewrite !run_spec|]. split.
  - rewrite run_spec. eexists _, _. split; [reflexivity|]. apply document_of_keys.
  - intros k ks. rewrite run_spec. eexists _, _. split; [reflexivity|].
    apply document_of_keys.
Qed.

End RunFacts.

(** ** Construction and configuration *)

Lemma init_installed o :
  __init__ true o = Ok (mkPyPDFToDocument (py_or o [])).
Proof. reflexivity. Qed.

Lemma init_missing o :
  __init__ false o =
    Raise (ImportError "No module named 'pypdf'. Run 'pip install pypdf'").
Proof. reflexivity. Qed.

Lemma py_or_some_nil (L : list string) : py_or (Some L) [] = L.
Proof. by destruct L. Qed.

Lemma new_from_config installed (L : list string) :
  PyPDFToDocument_new installed {[ "id_hash_keys" := L ]} = __init__ installed (Some L).
Proof.
  unfold PyPDFToDocument_new.
  rewrite decide_True by (by rewrite dom_singleton_L).
  by rewrite lookup_singleton_eq.
Qed.

(** C4. An instance built with the list L serializes to a
    configuration from which [from_dict] builds an instance, and that
    instance serializes to the mapping of [id_hash_keys] to L. *)
Theorem config_round_trip installed L inst logs :
  __init__ installed (Some L) = Ok inst →
  ∃ config inst',
    to_dict (mkWorld inst logs) = (Ok config, mkWorld inst logs) ∧
    from_dict installed config = Ok inst' ∧
    ∀ logs', to_dict (mkWorld inst' logs') =
               (Ok {[ "id_hash_keys" := L ]}, mkWorld inst' logs').
Proof.
  intros Hinit. destruct installed; [|by rewrite init_missing in Hinit].
  rewrite init_installed, py_or_some_nil in Hinit. injection Hinit as <-.
  exists {[ "id_hash_keys" := L ]}, (mkPyPDFToDocument L).
  split; [reflexivity|]. split; [|reflexivity].
  unfold from_dict, default_from_dict.
  by rewrite new_from_config, init_installed, py_or_some_nil.
Qed.

(** C8. Without pypdf in the environment the constructor raises an
    [ImportError] with the installation hint, whatever its argument,
    and [from_dict], which goes through the constructor, builds no
    instance either: there is no instance to call [run] on.  With
    pypdf the constructor returns an instance. *)
Theorem construction_fails_without_pypdf o :
  __init__ false o =
    Raise (ImportError "No module named 'pypdf'. Run 'pip install pypdf'") ∧
  (∀ config inst, from_dict false config ≠ Ok inst) ∧
  (∃ inst, __init__ true o = Ok inst).
Proof.
  split; [reflexivity|]. split.
  - intros config inst. unfold from_dict, default_from_dict, PyPDFToDocument_new.
    case_decide; [by rewrite init_missing | done].
  - eexists. apply init_installed.
Qed.

(** ** The component at work *)

Lemma sample_reader_reads_files : reads_files Sample.fs Sample.reader.
Proof. intros name payload H. simpl. by rewrite H. Qed.

Lemma run_skips_failing_item_witness :
  run Sample.reader
    [ItemStr "valid.pdf"; ItemStr "corrupt.pdf"; ItemStr "valid2.pdf"]
    None Sample.world =
  (Ok {[ "documents" :=
           [mkDocument "Hello world" ["text"]; mkDocument "Second" ["text"]] ]},
   mkWorld Sample.converter
     [warning skip_message (ItemStr "corrupt.pdf")
        (mkException "PdfReadError" "EOF marker not found")]).
Proof.
  exact (run_skips_failing_item Sample.reader
           [ItemStr "valid.pdf"] (ItemStr "corrupt.pdf") [ItemStr "valid2.pdf"]
           (mkException "PdfReadError" "EOF marker not found")
           None Sample.world eq_refl).
Defined.

Lemma config_round_trip_witness :
  ∃ config inst',
    to_dict (mkWorld (mkPyPDFToDocument ["text"; "meta"]) []) =
      (Ok config, mkWorld (mkPyPDFToDocument ["text"; "meta"]) []) ∧
    from_dict true config = Ok inst' ∧
    ∀ logs', to_dict (mkWorld inst' logs') =
               (Ok {[ "id_hash_keys" := ["text"; "meta"] ]}, mkWorld inst' logs').
Proof.
  apply (config_round_trip true ["text"; "meta"]
           (mkPyPDFToDocument ["text"; "meta"]) []).
  reflexivity.
Defined.

Lemma override_used_and_default_kept_witness :
  ∃ docs w',
    run Sample.reader [ItemStr "valid.pdf"] (Some ["custom"]) Sample.world =
      (Ok {[ "documents" := docs ]}, w') ∧
    Forall (λ d, doc_id_hash_keys d = ["custom"]) docs ∧
    self w' = Sample.converter ∧
    ∃ docs2 w'',
      run Sample.reader [ItemStr "valid2.pdf"] None w' =
        (Ok {[ "documents" := docs2 ]}, w'') ∧
      Forall (λ d, doc_id_hash_keys d = ["text"]) docs2.
Proof.
  apply (override_used_and_default_kept Sample.reader
           [ItemStr "valid.pdf"] ["custom"] [ItemStr "valid2.pdf"] Sample.world).
  discriminate.
Defined.

Lemma text_is_join_of_nonempty_pages_witness :
  run Sample.reader [ItemStr "valid.pdf"] None Sample.world =
    (Ok {[ "documents" := [mkDocument "Hello world" ["text"]] ]}, Sample.world) ∧
  run Sample.reader [ItemStr "scan.pdf"] None Sample.world =
    (Ok {[ "documents" := [mkDocument "" ["text"]] ]}, Sample.world).
Proof.
  split.
  - exact (proj1 (text_is_join_of_nonempty_pages Sample.reader
             (ItemStr "valid.pdf")
             [mkPage (Ok "Hello "); mkPage (Ok ""); mkPage (Ok "world")]
             ["Hello "; ""; "world"] None Sample.world
             (opens_str Sample.reader "valid.pdf" _ eq_refl) eq_refl)).
  - exact (proj2 (text_is_join_of_nonempty_pages Sample.reader
             (ItemStr "scan.pdf") [mkPage (Ok "")] [""] None Sample.world
             (opens_str Sample.reader "scan.pdf" _ eq_refl) eq_refl)
             (List.Forall_cons _ "" [] eq_refl (List.Forall_nil _))).
Defined.

Lemma path_and_buffer_give_same_text_witness :
  ∃ d_str d_path d_buf,
    (run Sample.reader [ItemStr "valid.pdf"] None Sample.world).1 =
      Ok {[ "documents" := [d_str] ]} ∧
    (run Sample.reader [ItemPath (mkPath "valid.pdf")] None Sample.world).1 =
      Ok {[ "documents" := [d_path] ]} ∧
    (run Sample.reader [ItemByteStream Sample.hello_buffer] None Sample.world).1 =
      Ok {[ "documents" := [d_buf] ]} ∧
    text d_str = text d_buf ∧ text d_path = text d_buf.
Proof.
  apply (path_and_buffer_give_same_text Sample.reader Sample.fs "valid.pdf"
           Sample.hello_buffer
           [mkPage (Ok "Hello "); mkPage (Ok ""); mkPage (Ok "world")]
           ["Hello "; "world"]).
  - exact sample_reader_reads_files.
  - reflexivity.
  - reflexivity.
  - reflexivity.
Defined.

(** C1 does not hold as stated: a list with an integer after a valid
    file gives the document of the file and a warning for the integer;
    nothing is raised. *)
Lemma unsupported_item_aborts_counterexample :
  Exists (λ item, is_supported item = false) [ItemStr "valid.pdf"; Sample.an_int] ∧
  run Sample.reader [ItemStr "valid.pdf"; Sample.an_int] None Sample.world =
    (Ok {[ "documents" := [mkDocument "Hello world" ["text"]] ]},
     mkWorld Sample.converter
       [warning skip_message Sample.an_int
          (ValueError "Unsupported path type: <class 'int'>")]) ∧
  ∀ e, (run Sample.reader [ItemStr "valid.pdf"; Sample.an_int] None Sample.world).1
         ≠ Raise e.
Proof.
  split; [apply Exists_cons_tl, Exists_cons_hd; reflexivity|].
  rewrite run_spec. split; [reflexivity | done].
Qed.

(** C5 does not hold for every override: with the empty list as
    override the document is built with the instance's default
    [["text"]], not with the empty list. *)
Lemma empty_override_replaces_default_counterexample :
  run Sample.reader [ItemStr "valid.pdf"] (Some []) Sample.world =
    (Ok {[ "documents" := [mkDocument "Hello world" ["text"]] ]}, Sample.world) ∧
  doc_id_hash_keys (mkDocument "Hello world" ["text"]) ≠ [].
Proof.
  rewrite run_spec. split; [reflexivity | done].
Qed.

(** ** Further properties of [run] and [_read_pdf_file] *)

Section MoreRunFacts.

Variable PdfReader : PdfSource → Result (list PdfPage).

Local Abbreviation read := (_read_pdf_file PdfReader).
Local Abbreviation doc_of := (document_of PdfReader).
Local Abbreviation warn_of := (warning_of PdfReader).
Local Abbreviation failing := (λ p, fails PdfReader p = true).
Local Abbreviation readable := (λ p, fails PdfReader p = false).

Lemma warnings_in_order paths :
  Forall2 (λ p r, r = warning skip_message p (arg_error r) ∧ read p = Raise (arg_error r))
    (filter failing paths) (omap warn_of paths).
Proof.
  induction paths as [|p paths IH]; simpl; [constructor|].
  unfold warning_of at 1. destruct (read p) as [t|e] eqn:E; simpl.
  - by rewrite filter_cons_False by (unfold fails; by rewrite E).
  - rewrite filter_cons_True by (unfold fails; by rewrite E).
    by constructor.
Qed.

Lemma no_warning_iff paths :
  omap warn_of paths = [] ↔ Forall readable paths.
Proof.
  induction paths as [|p paths IH]; simpl.
  { split; [constructor | done]. }
  rewrite Forall_cons. unfold warning_of at 1, fails at 1.
  destruct (read p) as [t|e]; simpl.
  - rewrite IH. split; [by intros ?; split | by intros [_ ?]].
  - split; [done | by intros [? _]].
Qed.

Lemma all_documents_iff keys paths :
  length (omap (doc_of keys) paths) = length paths ↔ Forall readable paths.
Proof.
  pose proof (length_documents PdfReader keys paths) as Hlen.
  split.
  - intros Hall. rewrite Hall in Hlen.
    assert (filter failing paths = []) as Hnone by (apply length_zero_iff_nil; lia).
    apply Forall_forall. intros p Hp.
    destruct (fails PdfReader p) eqn:E; [|done].
    assert (p ∈ filter failing paths) as Hin by (by apply list_elem_of_filter).
    rewrite Hnone in Hin. by apply elem_of_nil in Hin.
  - intros Hall.
    assert (filter failing paths = []) as Hnone.
    { clear Hlen. induction Hall as [|p paths Hp _ IH]; [done|].
      rewrite filter_cons_False; [done|]. rewrite Hp. done. }
    rewrite Hnone in Hlen. simpl in Hlen. lia.
Qed.

Lemma document_of_text keys keys' path :
  text <$> doc_of keys path = text <$> doc_of keys' path.
Proof. unfold document_of. by destruct (read path). Qed.

Lemma documents_text keys keys' (paths : list PathItem) :
  text <$> omap (doc_of keys) paths = text <$> omap (doc_of keys') paths.
Proof.
  induction paths as [|p paths IH]; simpl; [done|].
  unfold document_of in *.
  destruct (read p); simpl; [f_equal; exact IH | exact IH].
Qed.

Lemma document_of_source keys a b :
  source_of a = source_of b → doc_of keys a = doc_of keys b.
Proof.
  intros H. unfold document_of, _read_pdf_file.
  destruct a, b; simplify_eq/=; try done; by rewrite ?H.
Qed.

Lemma extracted_texts_raise good : ∀ texts bad rest e,
  extract_text <$> good = Ok <$> texts →
  extract_text bad = Raise e →
  extracted_texts (good ++ bad :: rest) = Raise e.
Proof.
  induction good as [|page good IH]; intros [|t texts] bad rest e Hgood Hbad;
    simpl in Hgood; try done.
  - simpl. by rewrite Hbad.
  - injection Hgood as Ht Hrest. simpl. rewrite Ht. simpl.
    by rewrite (IH texts bad rest e Hrest Hbad).
Qed.

Lemma string_length_append (s t : string) :
  String.length (s +:+ t) = String.length s + String.length t.
Proof.
  induction s as [|c s IH]; [done|].
  change (S (String.length (s +:+ t)) = S (String.length s + String.length t)).
  by rewrite IH.
Qed.

Lemma joined_length (texts : list string) :
  String.length (foldr String.append "" (filter (λ t, t ≠ "") texts))
    = sum_list (String.length <$> texts).
Proof.
  induction texts as [|t texts IH]; [done|].
  destruct (decide (t = "")) as [->|Hne].
  - rewrite filter_cons_False by (by intros ?). simpl. exact IH.
  - rewrite filter_cons_True by done. simpl.
    by rewrite string_length_append, IH.
Qed.

(** X1. A call on the concatenation of two lists returns the
    documents of a call on the first list followed by those of a call
    on the second list made in the state the first call leaves, and
    leaves the state the second call leaves. *)
Theorem run_app before after o w :
  ∃ docs1 w1 docs2 w2,
    run PdfReader before o w = (Ok {[ "documents" := docs1 ]}, w1) ∧
    run PdfReader after o w1 = (Ok {[ "documents" := docs2 ]}, w2) ∧
    run PdfReader (before ++ after) o w = (Ok {[ "documents" := docs1 ++ docs2 ]}, w2).
Proof.
  rewrite !run_spec. eexists _, _, _, _. split; [reflexivity|].
  rewrite run_spec. split; [reflexivity|]. simpl.
  by rewrite !omap_app, app_assoc.
Qed.

(** X2. On the empty list [run] returns the mapping of
    ["documents"] to the empty list and leaves the instance and the
    log as they were, whatever the override. *)
Theorem run_nil o w :
  run PdfReader [] o w = (Ok {[ "documents" := [] ]}, w).
Proof.
  rewrite run_spec. simpl. rewrite app_nil_r. by destruct w.
Qed.

(** X3. The records a call adds to the log are, in the order of the
    inputs, one warning for each input that fails to be read, holding
    the skip message, that input and the exception reading it raises;
    every input gives either a document or a warning. *)
Theorem run_logs_one_warning_per_failure paths o w :
  ∃ docs w' added,
    run PdfReader paths o w = (Ok {[ "documents" := docs ]}, w') ∧
    log_records w' = log_records w ++ added ∧
    Forall2 (λ p r, r = warning skip_message p (arg_error r) ∧ read p = Raise (arg_error r))
      (filter failing paths) added ∧
    length docs + length added = length paths.
Proof.
  rewrite run_spec. eexists _, _, _. split; [reflexivity|].
  split; [reflexivity|]. split; [apply warnings_in_order|].
  pose proof (length_documents PdfReader (py_or o (id_hash_keys (self w))) paths) as Hlen.
  pose proof (Forall2_length _ _ _ (warnings_in_order paths)) as Hwarn.
  lia.
Qed.

(** X4. When the reader opens an item and a page raises while every
    page before it gives a text, [_read_pdf_file] raises that page's
    exception: the text of the earlier pages is dropped, no document
    is produced and the warning holds the page's exception. *)
Theorem page_failure_skips_item item good texts bad rest e o w :
  opens PdfReader item (good ++ bad :: rest) →
  extract_text <$> good = Ok <$> texts →
  extract_text bad = Raise e →
  read item = Raise e ∧
  run PdfReader [item] o w =
    (Ok {[ "documents" := [] ]},
     mkWorld (self w) (log_records w ++ [warning skip_message item e])).
Proof.
  intros Hopen Hgood Hbad.
  pose proof (extracted_texts_raise good texts bad rest e Hgood Hbad) as Hraise.
  assert (read item = Raise e) as Hread.
  { inversion Hopen as [s ps Hr|p ps Hr|b ps Hr]; subst;
      unfold _read_pdf_file; rewrite Hr; simpl; by rewrite Hraise. }
  split; [done|].
  rewrite run_spec. simpl. unfold document_of, warning_of. by rewrite Hread.
Qed.

(** X5. Two lists whose items, position by position, name the same
    file (as a string or as a [Path]) or hold the same bytes (whatever
    the metadata of the buffer) give the same result; only the
    warnings, which hold the items themselves, can differ. *)
Theorem run_depends_on_source paths paths' o w :
  Forall2 (λ a b, source_of a = source_of b) paths paths' →
  (run PdfReader paths o w).1 = (run PdfReader paths' o w).1.
Proof.
  intros H. rewrite !run_spec. simpl. do 2 f_equal.
  induction H as [|a b l l' Hab _ IH]; simpl; [done|].
  rewrite (document_of_source _ a b Hab).
  destruct (doc_of (py_or o (id_hash_keys (self w))) b); [f_equal|]; exact IH.
Qed.

(** X6. Which inputs become documents, and the text of each
    document, depend neither on the override, nor on the instance, nor
    on the log: two calls on the same list give documents with the
    same texts in the same order. *)
Theorem run_texts_independent_of_keys paths o o' w w' :
  ∃ docs docs' w1 w1',
    run PdfReader paths o w = (Ok {[ "documents" := docs ]}, w1) ∧
    run PdfReader paths o' w' = (Ok {[ "documents" := docs' ]}, w1') ∧
    text <$> docs = text <$> docs'.
Proof.
  rewrite !run_spec. eexists _, _, _, _. split; [reflexivity|].
  split; [reflexivity|]. apply documents_text.
Qed.

(** X7. A call never changes the instance it is made on and never
    removes or reorders a record of the log: the log after the call
    starts with the log before it. *)
Theorem run_frame paths o w :
  self (run PdfReader paths o w).2 = self w ∧
  log_records w `prefix_of` log_records (run PdfReader paths o w).2.
Proof.
  rewrite run_spec. simpl. split; [done|]. by apply prefix_app_r.
Qed.

(** X8. Calling [run] again on the same list, in the state the
    first call leaves, returns the same mapping and records the same
    warnings once more. *)
Theorem run_twice paths o w :
  (run PdfReader paths o (run PdfReader paths o w).2).1 = (run PdfReader paths o w).1 ∧
  ∃ added,
    log_records (run PdfReader paths o w).2 = log_records w ++ added ∧
    log_records (run PdfReader paths o (run PdfReader paths o w).2).2
      = log_records w ++ added ++ added.
Proof.
  rewrite !run_spec. simpl. split; [done|].
  eexists. split; [reflexivity|]. by rewrite app_assoc.
Qed.

(** X9. A call leaves the state as it was exactly when no input
    fails to be read, and exactly then it returns as many documents as
    there are inputs. *)
Theorem run_silent_iff_all_readable paths o w :
  ∃ docs w',
    run PdfReader paths o w = (Ok {[ "documents" := docs ]}, w') ∧
    (w' = w ↔ Forall readable paths) ∧
    (length docs = length paths ↔ Forall readable paths).
Proof.
  rewrite run_spec. eexists _, _. split; [reflexivity|]. split.
  - rewrite <- no_warning_iff. destruct w as [inst log]. simpl. split.
    + intros Heq. injection Heq as Heq.
      rewrite <- (app_nil_r log) in Heq at 2. by apply app_inv_head in Heq.
    + intros ->. by rewrite app_nil_r.
  - apply all_documents_iff.
Qed.

(** X10. The documents of a call on an instance built by the
    constructor carry the override of the call when it is a non-empty
    list, otherwise the constructor's argument when that is a
    non-empty list, otherwise the empty list. *)
Theorem keys_of_constructed_instance installed o inst paths o' log :
  __init__ installed o = Ok inst →
  ∃ docs w',
    run PdfReader paths o' (mkWorld inst log) = (Ok {[ "documents" := docs ]}, w') ∧
    Forall (λ d, doc_id_hash_keys d = py_or o' (py_or o [])) docs.
Proof.
  intros Hinit. destruct installed; [|by rewrite init_missing in Hinit].
  rewrite init_installed in Hinit. injection Hinit as <-.
  rewrite run_spec. eexists _, _. split; [reflexivity|]. simpl.
  apply document_of_keys.
Qed.

(** X11. When the reader opens an item and every page gives a
    text, the text read has as many characters as the texts of the
    pages together: joining adds and drops no character. *)
Theorem read_text_length item pages texts :
  opens PdfReader item pages →
  extract_text <$> pages = Ok <$> texts →
  ∃ t, read item = Ok t ∧ String.length t = sum_list (String.length <$> texts).
Proof.
  intros Hopen Hpages. eexists. split; [by eapply read_opens|].
  apply joined_length.
Qed.

(** X12. Calls on two lists that are permutations of each other
    return documents that are permutations of each other. *)
Theorem run_permutation paths paths' o w :
  paths ≡ₚ paths' →
  ∃ docs docs' w1 w1',
    run PdfReader paths o w = (Ok {[ "documents" := docs ]}, w1) ∧
    run PdfReader paths' o w = (Ok {[ "documents" := docs' ]}, w1') ∧
    docs ≡ₚ docs'.
Proof.
  intros Hperm. rewrite !run_spec. eexists _, _, _, _.
  split; [reflexivity|]. split; [reflexivity|]. by rewrite Hperm.
Qed.

End MoreRunFacts.

Lemma page_failure_skips_item_witness :
  _read_pdf_file Sample.reader (ItemStr "damaged.pdf") =
    Raise (mkException "KeyError" "/Contents") ∧
  run Sample.reader [ItemStr "damaged.pdf"] None Sample.world =
    (Ok {[ "documents" := [] ]},
     mkWorld Sample.converter
       [warning skip_message (ItemStr "damaged.pdf")
          (mkException "KeyError" "/Contents")]).
Proof.
  exact (page_failure_skips_item Sample.reader (ItemStr "damaged.pdf")
           [mkPage (Ok "Third")] ["Third"]
           (mkPage (Raise (mkException "KeyError" "/Contents"))) []
           (mkException "KeyError" "/Contents") None Sample.world
           (opens_str Sample.reader "damaged.pdf" _ eq_refl) eq_refl eq_refl).
Defined.

Lemma run_depends_on_source_witness :
  (run Sample.reader
     [ItemStr "valid.pdf"; ItemByteStream Sample.hello_buffer; Sample.an_int]
     None Sample.world).1 =
  (run Sample.reader
     [ItemPath (mkPath "valid.pdf"); ItemByteStream Sample.tagged_buffer;
      ItemOther "<class 'float'>"]
     None Sample.world).1.
Proof.
  apply (run_depends_on_source Sample.reader).
  repeat constructor.
Defined.

Lemma keys_of_constructed_instance_witness :
  ∃ docs w',
    run Sample.reader [ItemStr "valid.pdf"] (Some [])
      (mkWorld (mkPyPDFToDocument ["meta"]) []) =
      (Ok {[ "documents" := docs ]}, w') ∧
    Forall (λ d, doc_id_hash_keys d = ["meta"]) docs.
Proof.
  apply (keys_of_constructed_instance Sample.reader true (Some ["meta"])
           (mkPyPDFToDocument ["meta"]) [ItemStr "valid.pdf"] (Some []) []).
  reflexivity.
Defined.

Lemma read_text_length_witness :
  ∃ t, _read_pdf_file Sample.reader (ItemStr "valid.pdf") = Ok t ∧
       String.length t = 11.
Proof.
  apply (read_text_length Sample.reader (ItemStr "valid.pdf")
           [mkPage (Ok "Hello "); mkPage (Ok ""); mkPage (Ok "world")]
           ["Hello "; ""; "world"]).
  - apply opens_str. reflexivity.
  - reflexivity.
Defined.

Lemma run_permutation_witness :
  ∃ docs docs' w1 w1',
    run Sample.reader [ItemStr "valid.pdf"; ItemStr "valid2.pdf"] None Sample.world =
      (Ok {[ "documents" := docs ]}, w1) ∧
    run Sample.reader [ItemStr "valid2.pdf"; ItemStr "valid.pdf"] None Sample.world =
      (Ok {[ "documents" := docs' ]}, w1') ∧
    docs ≡ₚ docs'.
Proof.
  apply (run_permutation Sample.reader).
  apply perm_swap.
Defined.
